(** * Four-bar linkage server: the solver and classifier of server.js

    The repository holds three revisions of one Express service.  Two of
    them define [grashofCondition] and [computeFourBar]: [src/server.js],
    which takes the square root of the discriminant unguarded, and
    [src/unnamed/part_001], which tests the discriminant first and answers
    [null] when it is negative.  Both are embedded here, the functions
    whose text is the same in the two files once, [computeFourBar] in a
    module per file.  The third revision, [src/unnamed/part_000], computes
    inside its handler with other formulas and has no classifier; it is
    not embedded.

    JavaScript numbers are IEEE 754 binary64 values, so they are Rocq's
    primitive floats: [+], [-], [*], [/], [<] and the square root are the
    kernel's operations, a decimal literal denotes the nearest double as
    it does in JavaScript, and NaN, the infinities and the two zeros are
    values like any other.  What ECMAScript leaves to the implementation
    ([Math.cos], [Math.sin], [Math.atan2], [**]) and what mathjs does with
    a negative square root are the fields of a [Platform] record: the
    theorems hold for every platform, and the evaluations are made on the
    [reference] platform defined below. *)

From Stdlib Require Import ZArith Bool List String Lia Permutation.
From Stdlib Require Import Floats.
Import ListNotations.

Set Warnings "-inexact-float".
Local Open Scope float_scope.

(** ** JavaScript values and number operations *)

Module JS.

(** The values a field of the request body takes once destructured: a
    key that is absent reads [undefined], and the service is specified for
    bodies whose other fields are JSON numbers or [null]. *)
Inductive value : Type :=
| Undefined
| Null
| Number (x : float).

(** [v == null]: true of [null] and [undefined] only. *)
Definition loose_eq_null (v : value) : bool :=
  match v with
  | Undefined | Null => true
  | Number _ => false
  end.

(** [ToNumber], applied by every arithmetic operator and [Math] function. *)
Definition ToNumber (v : value) : float :=
  match v with
  | Undefined => nan
  | Null => 0
  | Number x => x
  end.

(** [Math.PI], the double nearest to pi. *)
Definition PI : float := 3.141592653589793.

(** [n % d] (Number::remainder): the exact remainder of the truncating
    division, with the sign of the dividend.  The mantissas are brought to
    the smaller of the two exponents; the remainder is below [2^53] and is
    a double. *)
Definition remainder (n d : float) : float :=
  match Prim2SF n, Prim2SF d with
  | S754_nan, _ | _, S754_nan => nan
  | S754_infinity _, _ => nan
  | _, S754_infinity _ => n
  | _, S754_zero _ => nan
  | S754_zero _, _ => n
  | S754_finite sn mn en, S754_finite _ md ed =>
      let e := Z.min en ed in
      let N := (Zpos mn * 2 ^ (en - e))%Z in
      let D := (Zpos md * 2 ^ (ed - e))%Z in
      match (N mod D)%Z with
      | Zpos r => SF2Prim (S754_finite sn r e)
      | _ => if sn then neg_zero else zero
      end
  end.

Definition is_pos_zero (x : float) : bool := is_zero x && negb (get_sign x).
Definition is_neg_zero (x : float) : bool := is_zero x && get_sign x.

(** [Math.min(...args)]: NaN if an argument is NaN, otherwise the lowest,
    [-0] counting below [+0]; [+Infinity] for no argument. *)
Fixpoint min_from (lowest : float) (coerced : list float) : float :=
  match coerced with
  | [] => lowest
  | number :: rest =>
      if is_nan number then nan
      else if is_neg_zero number && is_pos_zero lowest then min_from neg_zero rest
      else if number <? lowest then min_from number rest
      else min_from lowest rest
  end.

Definition Math_min (args : list float) : float := min_from infinity args.

(** [Math.max(...args)], symmetrically, from [-Infinity]. *)
Fixpoint max_from (highest : float) (coerced : list float) : float :=
  match coerced with
  | [] => highest
  | number :: rest =>
      if is_nan number then nan
      else if is_pos_zero number && is_neg_zero highest then max_from zero rest
      else if highest <? number then max_from number rest
      else max_from highest rest
  end.

Definition Math_max (args : list float) : float := max_from neg_infinity args.

Definition Math_abs (x : float) : float := abs x.

(** The results ECMAScript fixes for [Math.atan2(y, x)]; [None] where the
    result is left to the implementation (both arguments finite and not
    zero).  The multiples of pi it asks for are the doubles derived from
    [Math.PI]. *)
Definition atan2_fixed (y x : float) : option float :=
  if is_nan y || is_nan x then Some nan
  else if is_infinity y then
    let r := if is_infinity x
             then (if get_sign x then 3 * PI / 4 else PI / 4)
             else PI / 2 in
    Some (if get_sign y then - r else r)
  else if is_zero y then
    let r := if get_sign x then PI else 0 in
    Some (if get_sign y then - r else r)
  else if is_infinity x then
    let r := if get_sign x then PI else 0 in
    Some (if get_sign y then - r else r)
  else if is_zero x then
    Some (if get_sign y then - (PI / 2) else PI / 2)
  else None.

(** The results ECMAScript fixes for [Math.cos(x)] and [Math.sin(x)]. *)
Definition cos_fixed (x : float) : option float :=
  if is_nan x || is_infinity x then Some nan
  else if is_zero x then Some 1
  else None.

Definition sin_fixed (x : float) : option float :=
  if is_nan x || is_infinity x then Some nan
  else if is_zero x then Some x
  else None.

End JS.

(** ** The platform under the service *)

(** The functions whose results ECMAScript calls implementation-approximated,
    and the one behaviour of mathjs the service meets outside the domain of
    the real square root.  [complex_operand x] is the Number the operators
    [-] and [+] obtain (by [ToNumber]) from the Complex object that
    [math.sqrt(x)] returns for a negative [x]. *)
Record Platform : Type := {
  Math_cos : float -> float;
  Math_sin : float -> float;
  Math_atan2 : float -> float -> float;
  exponentiate : float -> float -> float;
  complex_operand : float -> float
}.

(** A platform follows ECMAScript when it returns the fixed results. *)
Record Conforming (P : Platform) : Prop := {
  cos_conforms : forall x r, JS.cos_fixed x = Some r -> Math_cos P x = r;
  sin_conforms : forall x r, JS.sin_fixed x = Some r -> Math_sin P x = r;
  atan2_conforms :
    forall y x r, JS.atan2_fixed y x = Some r -> Math_atan2 P y x = r
}.

(** [math.sqrt] of mathjs on a number, as an operand of [-] or [+]:
    [Math.sqrt] unless the argument is negative. *)
Definition math_sqrt (P : Platform) (x : float) : float :=
  if x <? 0 then complex_operand P x else sqrt x.

(** ** Functions common to server.js and part_001 *)

Definition degToRad (deg : float) : float := (deg * JS.PI) / 180.

Definition radToDeg (rad : float) : float := (rad * 180) / JS.PI.

(** Top level in part_001, local to [computeFourBar] in server.js. *)
Definition normalizeAngle (angleDeg : float) : float :=
  let a := JS.remainder angleDeg 360 in
  if a <? 0 then a + 360 else a.

Definition grashofCondition (a b c d : float) : string :=
  let S := JS.Math_min [a; b; c; d] in
  let L := JS.Math_max [a; b; c; d] in
  let PQ := (a + b + c + d) - (S + L) in
  let SL := S + L in
  if SL <? PQ then "Grashof"%string
  else if JS.Math_abs (SL - PQ) <? 1e-9 then "Special Grashof"%string
  else "non-Grashof"%string.




(** A list of numbers, none of them NaN; a list of positive numbers. *)
Definition no_nan (l : list float) : Prop :=
  Forall (fun x => is_nan x = false) l.

Definition positive (l : list float) : Prop :=
  Forall (fun x => (0 <? x) = true) l.

(** The normalization as the specification writes it,
    [((x mod 360) + 360) mod 360]. *)
Definition spec_normalize (x : float) : float :=
  JS.remainder (JS.remainder x 360 + 360) 360.

(** The object [computeFourBar] returns. *)
Record Angles : Type := {
  theta41 : JS.value;
  theta42 : JS.value;
  theta31 : JS.value;
  theta32 : JS.value
}.

(** The coefficients of the two closure equations, as both files compute
    them: [coefA] to [coefF] are the constants [A] to [F] of the source,
    [sqrtVal4] and [sqrtVal3] the two discriminants under the names
    part_001 gives them. *)
Section Coefficients.

Variable P : Platform.
Variables a b c d theta2_deg : float.

Definition theta2 : float := degToRad theta2_deg.
Definition K1 : float := d / c.
Definition K2 : float := d / b.
Definition K3 : float :=
  (exponentiate P a 2 - exponentiate P b 2 + exponentiate P c 2
   + exponentiate P d 2) / (2 * a * c).
Definition coefA : float :=
  Math_cos P theta2 - K1 - K2 * Math_cos P theta2 + K3.
Definition coefB : float := (-2) * Math_sin P theta2.
Definition coefC : float := K1 - (K2 - 1) * Math_cos P theta2 + K3.
Definition sqrtVal4 : float := coefB * coefB - 4 * coefA * coefC.

Definition K4 : float := d / b.
Definition K5 : float :=
  (exponentiate P c 2 - exponentiate P d 2 + exponentiate P a 2
   + exponentiate P b 2) / (2 * a * b).
Definition coefD : float := Math_cos P theta2 - K4 * Math_cos P theta2 + K5.
Definition coefE : float := (-2) * Math_sin P theta2.
Definition coefF : float := K4 - (1 - K4) * Math_cos P theta2 + K5.
Definition sqrtVal3 : float := coefE * coefE - 4 * coefD * coefF.

End Coefficients.

(** One root of a closure equation, [2 * Math.atan2(2 * A, part)], in
    degrees and normalized. *)
Definition solutionAngle (P : Platform) (A part : float) : float :=
  normalizeAngle (radToDeg (2 * Math_atan2 P (2 * A) part)).

(** ** [computeFourBar] of src/unnamed/part_001

    The calls to [console.log] write to the log and leave the result
    alone; they are not modelled. *)
Module Part001.

Definition computeFourBar (P : Platform) (a b c d theta2_deg : float)
  : Angles :=
  let A := coefA P a b c d theta2_deg in
  let B := coefB P theta2_deg in
  let sqrtVal4 := sqrtVal4 P a b c d theta2_deg in
  let '(theta41, theta42) :=
    if sqrtVal4 <? 0 then (JS.Null, JS.Null)
    else
      let root4 := math_sqrt P sqrtVal4 in
      let partOpen4 := - B - root4 in
      let partCross4 := - B + root4 in
      (JS.Number (solutionAngle P A partOpen4),
       JS.Number (solutionAngle P A partCross4)) in
  let D := coefD P a b c d theta2_deg in
  let E := coefE P theta2_deg in
  let sqrtVal3 := sqrtVal3 P a b c d theta2_deg in
  let '(theta31, theta32) :=
    if sqrtVal3 <? 0 then (JS.Null, JS.Null)
    else
      let root3 := math_sqrt P sqrtVal3 in
      let partOpen3 := - E - root3 in
      let partCross3 := - E + root3 in
      (JS.Number (solutionAngle P D partOpen3),
       JS.Number (solutionAngle P D partCross3)) in
  {| theta41 := theta41; theta42 := theta42;
     theta31 := theta31; theta32 := theta32 |}.

End Part001.

(** ** [computeFourBar] of src/server.js *)
Module ServerJs.

Definition computeFourBar (P : Platform) (a b c d theta2_deg : float)
  : Angles :=
  let A := coefA P a b c d theta2_deg in
  let B := coefB P theta2_deg in
  let C := coefC P a b c d theta2_deg in
  let partOpen := - B - math_sqrt P (B * B - 4 * A * C) in
  let partCross := - B + math_sqrt P (B * B - 4 * A * C) in
  let D := coefD P a b c d theta2_deg in
  let E := coefE P theta2_deg in
  let F := coefF P a b c d theta2_deg in
  let partOpen3 := - E - math_sqrt P (E * E - 4 * D * F) in
  let partCross3 := - E + math_sqrt P (E * E - 4 * D * F) in
  {| theta41 := JS.Number (solutionAngle P A partOpen);
     theta42 := JS.Number (solutionAngle P A partCross);
     theta31 := JS.Number (solutionAngle P D partOpen3);
     theta32 := JS.Number (solutionAngle P D partCross3) |}.

End ServerJs.

(** ** The handler of [POST /compute]

    The two files validate alike and answer with the same JSON object.
    Nothing the handler calls throws on these values, so the [catch]
    branch (status 500) is never taken. *)

Record Body : Type := {
  body_a : JS.value;
  body_b : JS.value;
  body_c : JS.value;
  body_d : JS.value;
  body_theta2 : JS.value
}.

(** The body [{a, b, c, d, theta2}] of five numbers. *)
Definition numeric_body (a b c d theta2 : float) : Body :=
  {| body_a := JS.Number a; body_b := JS.Number b; body_c := JS.Number c;
     body_d := JS.Number d; body_theta2 := JS.Number theta2 |}.

(** The answer: its status and what the handler hands to [res.json] (the
    field [error], or [grashof] and the four angles).  [res.json] writes
    the object with [JSON.stringify], which prints NaN and the infinities
    as [null]; the objects here are those before that. *)
Inductive Response : Type :=
| Status400 (error : string)
| Status200 (grashof : string) (angles : Angles)
| Status500 (error : string).

Definition missing_field (req : Body) : bool :=
  JS.loose_eq_null (body_a req) || JS.loose_eq_null (body_b req)
  || JS.loose_eq_null (body_c req) || JS.loose_eq_null (body_d req)
  || JS.loose_eq_null (body_theta2 req).

Definition missing_message : string :=
  "Missing one of the required fields: a, b, c, d, theta2".

Definition post_compute
  (computeFourBar : float -> float -> float -> float -> float -> Angles)
  (req : Body) : Response :=
  if missing_field req then Status400 missing_message
  else
    let a := JS.ToNumber (body_a req) in
    let b := JS.ToNumber (body_b req) in
    let c := JS.ToNumber (body_c req) in
    let d := JS.ToNumber (body_d req) in
    let theta2 := JS.ToNumber (body_theta2 req) in
    let angles := computeFourBar a b c d theta2 in
    let grashof := grashofCondition a b c d in
    Status200 grashof angles.

(** ** A reference platform

    ECMAScript's fixed results, [x ** 2] as the product [x * x], the
    operand [+0] for mathjs's Complex (its [valueOf] answers [null] when
    the imaginary part is not zero), and the correctly rounded cosine,
    sine and arc tangent at the few other arguments the evaluations below
    reach.  Outside the tables the functions answer NaN. *)

Fixpoint lookup (x : float) (table : list (float * float)) : float :=
  match table with
  | [] => nan
  | (k, v) :: rest => if x =? k then v else lookup x rest
  end.

Fixpoint lookup2 (y x : float) (table : list (float * float * float))
  : float :=
  match table with
  | [] => nan
  | (ky, kx, v) :: rest =>
      if (y =? ky) && (x =? kx) then v else lookup2 y x rest
  end.

Definition cos_table : list (float * float) :=
  [ (1.5707963267948966, 6.123233995736766e-17);
    (6.283185307179586, 1);
    (7.853981633974483, 3.061616997868383e-16) ].

Definition sin_table : list (float * float) :=
  [ (1.5707963267948966, 1);
    (6.283185307179586, -2.4492935982947064e-16);
    (7.853981633974483, 1) ].

Definition atan2_table : list (float * float * float) :=
  [ (-6.123233995736765e-17, 4, -1.5308084989341912e-17);
    (-11, -9.797174393178826e-16, -1.5707963267948968);
    (5, -4.898587196589413e-16, 1.5707963267948968);
    (2, 2, 0.7853981633974483);
    (-4.440892098500626e-16, -4.440892098500626e-16, -2.356194490192345);
    (-4.440892098500626e-16, 4, -1.1102230246251565e-16) ].

Definition reference : Platform := {|
  Math_cos := fun x =>
    match JS.cos_fixed x with Some r => r | None => lookup x cos_table end;
  Math_sin := fun x =>
    match JS.sin_fixed x with Some r => r | None => lookup x sin_table end;
  Math_atan2 := fun y x =>
    match JS.atan2_fixed y x with
    | Some r => r
    | None => lookup2 y x atan2_table
    end;
  exponentiate := fun x y => if y =? 2 then x * x else nan;
  complex_operand := fun _ => 0
|}.


(** The comparison of two doubles is decided on signs, exponents and
    mantissas; [compare_cases] splits on each comparison in the goal. *)
Ltac compare_cases :=
  repeat match goal with
  | |- context [Z.compare ?u ?v] => destruct (Z.compare_spec u v)
  | |- context [Pos.compare_cont Eq ?u ?v] =>
      change (Pos.compare_cont Eq u v) with (Pos.compare u v);
      destruct (Pos.compare_spec u v)
  end.

(** * Properties *)

(** ** Facts about binary64 arithmetic *)

Lemma Prim2SF_zero : Prim2SF 0 = S754_zero false.
Proof. reflexivity. Qed.

Lemma Prim2SF_neg_zero : Prim2SF (-0) = S754_zero true.
Proof. reflexivity. Qed.


Lemma eqb_zero_inv (x : float) : (x =? 0) = true -> x = 0 \/ x = -0.
Proof.
  rewrite eqb_spec, Prim2SF_zero. unfold SFeqb. intros H.
  destruct (Prim2SF x) as [s | s | | s m e] eqn:E; try destruct s;
    simpl in H; try discriminate.
  - right. apply Prim2SF_inj. now rewrite E.
  - left. apply Prim2SF_inj. now rewrite E.
Qed.

Lemma sub_zero_r (x : float) : x - 0 = x.
Proof.
  apply Prim2SF_inj. rewrite sub_spec, Prim2SF_zero.
  destruct (Prim2SF x) as [s | s | | s m e]; try destruct s; reflexivity.
Qed.

Lemma add_neg_zero_r (x : float) : x + -0 = x.
Proof.
  apply Prim2SF_inj. rewrite add_spec, Prim2SF_neg_zero.
  destruct (Prim2SF x) as [s | s | | s m e]; try destruct s; reflexivity.
Qed.

Lemma add_zero_r (x : float) : x <> -0 -> x + 0 = x.
Proof.
  intros Hx. apply Prim2SF_inj. rewrite add_spec, Prim2SF_zero.
  destruct (Prim2SF x) as [s | s | | s m e] eqn:E; try destruct s;
    try reflexivity.
  exfalso. apply Hx. apply Prim2SF_inj. now rewrite E.
Qed.

Lemma sub_neg_zero_r (x : float) : x <> -0 -> x - -0 = x.
Proof.
  intros Hx. apply Prim2SF_inj. rewrite sub_spec, Prim2SF_neg_zero.
  destruct (Prim2SF x) as [s | s | | s m e] eqn:E; try destruct s;
    try reflexivity.
  exfalso. apply Hx. apply Prim2SF_inj. now rewrite E.
Qed.

(** Two doubles are equal or not; [Leibniz.eqb] decides it. *)
Lemma float_eq_dec (x y : float) : {x = y} + {x <> y}.
Proof.
  destruct (Leibniz.eqb x y) eqn:E.
  - left. now apply Leibniz.eqb_spec.
  - right. intros H. apply Leibniz.eqb_spec in H. congruence.
Qed.


(** The remainder and the normalization on ordinary angles. *)
Example normalizeAngle_examples :
  JS.remainder 725 360 = 5
  /\ JS.remainder (-90) 360 = -90
  /\ JS.remainder 7.5 2 = 1.5
  /\ normalizeAngle 725 = 5
  /\ normalizeAngle (-90) = 270
  /\ normalizeAngle (-180.00000000000003) = 179.99999999999997
  /\ normalizeAngle 360 = 0.
Proof. vm_compute. repeat split. Qed.

(** ** C1: the closed form of theta4 *)




(** ** C2: a negative discriminant *)

(** part_001 tests the discriminant: when it is negative both theta4
    outputs are [null]. *)
Lemma part001_negative_discriminant_null
  (P : Platform) (a b c d theta2_deg : float) :
  (sqrtVal4 P a b c d theta2_deg <? 0) = true ->
  theta41 (Part001.computeFourBar P a b c d theta2_deg) = JS.Null
  /\ theta42 (Part001.computeFourBar P a b c d theta2_deg) = JS.Null.
Proof.
  intros H. unfold Part001.computeFourBar. rewrite H.
  destruct (sqrtVal3 P a b c d theta2_deg <? 0); split; reflexivity.
Qed.

(** Links 1, 1, 1 and 5 cannot close: the discriminant is -224. *)
Lemma part001_negative_discriminant_null_witness :
  theta41 (Part001.computeFourBar reference 1 1 1 5 0) = JS.Null
  /\ theta42 (Part001.computeFourBar reference 1 1 1 5 0) = JS.Null.
Proof.
  exact (part001_negative_discriminant_null reference 1 1 1 5 0 eq_refl).
Defined.



(** ** C3 and C9: the classifier *)

(** The order of doubles, read on their specification. *)
Lemma SFleb_trans (x y z : spec_float) :
  SFleb x y = true -> SFleb y z = true -> SFleb x z = true.
Proof.
  unfold SFleb, SFcompare.
  destruct x as [sx | sx | | sx mx ex], y as [sy | sy | | sy my ey],
    z as [sz | sz | | sz mz ez];
    try destruct sx; try destruct sy; try destruct sz;
    try discriminate; try reflexivity;
    compare_cases; simpl; try discriminate; try reflexivity;
    intros; exfalso; lia.
Qed.

Lemma SFleb_total (x y : spec_float) :
  x <> S754_nan -> y <> S754_nan -> SFltb x y = false -> SFleb y x = true.
Proof.
  unfold SFleb, SFltb, SFcompare.
  destruct x as [sx | sx | | sx mx ex], y as [sy | sy | | sy my ey];
    try destruct sx; try destruct sy;
    try congruence; try reflexivity;
    compare_cases; simpl; try discriminate; try reflexivity;
    intros; exfalso; lia.
Qed.

Lemma is_nan_false_spec (x : float) :
  is_nan x = false -> Prim2SF x <> S754_nan.
Proof.
  unfold is_nan. rewrite eqb_spec. unfold SFeqb. intros H E.
  rewrite E in H. discriminate.
Qed.

Lemma leb_trans (x y z : float) :
  (x <=? y) = true -> (y <=? z) = true -> (x <=? z) = true.
Proof. rewrite !leb_spec. apply SFleb_trans. Qed.

Lemma leb_total (x y : float) :
  is_nan x = false -> is_nan y = false ->
  (x <? y) = false -> (y <=? x) = true.
Proof.
  intros Hx Hy. rewrite ltb_spec, leb_spec.
  apply SFleb_total; now apply is_nan_false_spec.
Qed.

Lemma ltb_leb (x y : float) : (x <? y) = true -> (x <=? y) = true.
Proof.
  rewrite ltb_spec, leb_spec. unfold SFltb, SFleb.
  now destruct (SFcompare (Prim2SF x) (Prim2SF y)) as [[ | | ] | ].
Qed.

Lemma leb_refl (x : float) : is_nan x = false -> (x <=? x) = true.
Proof.
  unfold is_nan. rewrite eqb_spec, leb_spec. unfold SFeqb, SFleb.
  now destruct (SFcompare (Prim2SF x) (Prim2SF x)) as [[ | | ] | ].
Qed.

Lemma is_neg_zero_eq (x : float) : JS.is_neg_zero x = true -> x = -0.
Proof.
  unfold JS.is_neg_zero, is_zero. intros H.
  apply andb_true_iff in H as [Hz Hs].
  destruct (eqb_zero_inv x Hz) as [-> | ->]; [discriminate | reflexivity].
Qed.

Lemma is_pos_zero_eq (x : float) : JS.is_pos_zero x = true -> x = 0.
Proof.
  unfold JS.is_pos_zero, is_zero. intros H.
  apply andb_true_iff in H as [Hz Hs].
  destruct (eqb_zero_inv x Hz) as [-> | ->]; [reflexivity | discriminate].
Qed.

Lemma infinity_leb_inv (x : float) : (infinity <=? x) = true -> x = infinity.
Proof.
  rewrite leb_spec. change (Prim2SF infinity) with (S754_infinity false).
  unfold SFleb. intros H. apply Prim2SF_inj.
  change (Prim2SF infinity) with (S754_infinity false).
  destruct (Prim2SF x) as [s | s | | s m e]; try destruct s;
    simpl in H; try discriminate; reflexivity.
Qed.

Lemma leb_neg_infinity_inv (x : float) :
  (x <=? neg_infinity) = true -> x = neg_infinity.
Proof.
  rewrite leb_spec. change (Prim2SF neg_infinity) with (S754_infinity true).
  unfold SFleb. intros H. apply Prim2SF_inj.
  change (Prim2SF neg_infinity) with (S754_infinity true).
  destruct (Prim2SF x) as [s | s | | s m e]; try destruct s;
    simpl in H; try discriminate; reflexivity.
Qed.

(** [Math.min] on numbers: below its starting value and every argument,
    and one of them. *)
Lemma min_from_least (l : list float) :
  forall lowest, is_nan lowest = false -> no_nan l ->
  is_nan (JS.min_from lowest l) = false
  /\ (JS.min_from lowest l <=? lowest) = true
  /\ Forall (fun x => (JS.min_from lowest l <=? x) = true) l
  /\ (JS.min_from lowest l = lowest \/ In (JS.min_from lowest l) l).
Proof.
  induction l as [ | number rest IH]; intros lowest Hlow Hl.
  - cbn. repeat split; auto using leb_refl.
  - inversion Hl as [ | ? ? Hn Hrest]; subst. cbn [JS.min_from]. rewrite Hn.
    destruct (JS.is_neg_zero number && JS.is_pos_zero lowest) eqn:Hz.
    + apply andb_true_iff in Hz as [Hz1 Hz2].
      apply is_neg_zero_eq in Hz1. apply is_pos_zero_eq in Hz2. subst.
      destruct (IH neg_zero eq_refl Hrest) as (Hr & Hle & Hall & Hin).
      repeat split; auto.
      * now apply leb_trans with neg_zero.
      * destruct Hin as [E | Hin]; right; [left; now rewrite E | now right].
    + destruct (number <? lowest) eqn:Hlt.
      * destruct (IH number Hn Hrest) as (Hr & Hle & Hall & Hin).
        repeat split; auto.
        -- apply leb_trans with number; auto using ltb_leb.
        -- destruct Hin as [-> | Hin]; right; [now left | now right].
      * destruct (IH lowest Hlow Hrest) as (Hr & Hle & Hall & Hin).
        repeat split; auto.
        -- constructor; auto.
           apply leb_trans with lowest; auto using leb_total.
        -- destruct Hin as [-> | Hin]; [now left | right; now right].
Qed.

Lemma max_from_greatest (l : list float) :
  forall highest, is_nan highest = false -> no_nan l ->
  is_nan (JS.max_from highest l) = false
  /\ (highest <=? JS.max_from highest l) = true
  /\ Forall (fun x => (x <=? JS.max_from highest l) = true) l
  /\ (JS.max_from highest l = highest \/ In (JS.max_from highest l) l).
Proof.
  induction l as [ | number rest IH]; intros highest Hhigh Hl.
  - cbn. repeat split; auto using leb_refl.
  - inversion Hl as [ | ? ? Hn Hrest]; subst. cbn [JS.max_from]. rewrite Hn.
    destruct (JS.is_pos_zero number && JS.is_neg_zero highest) eqn:Hz.
    + apply andb_true_iff in Hz as [Hz1 Hz2].
      apply is_pos_zero_eq in Hz1. apply is_neg_zero_eq in Hz2. subst.
      destruct (IH zero eq_refl Hrest) as (Hr & Hle & Hall & Hin).
      repeat split; auto.
      * now apply leb_trans with zero.
      * destruct Hin as [E | Hin]; right; [left; now rewrite E | now right].
    + destruct (highest <? number) eqn:Hlt.
      * destruct (IH number Hn Hrest) as (Hr & Hle & Hall & Hin).
        repeat split; auto.
        -- apply leb_trans with number; auto using ltb_leb.
        -- destruct Hin as [-> | Hin]; right; [now left | now right].
      * destruct (IH highest Hhigh Hrest) as (Hr & Hle & Hall & Hin).
        repeat split; auto.
        -- constructor; auto.
           apply leb_trans with highest; auto using leb_total.
        -- destruct Hin as [-> | Hin]; [now left | right; now right].
Qed.

Lemma Math_min_least (x : float) (l : list float) :
  no_nan (x :: l) ->
  In (JS.Math_min (x :: l)) (x :: l)
  /\ Forall (fun y => (JS.Math_min (x :: l) <=? y) = true) (x :: l).
Proof.
  intros Hl. unfold JS.Math_min.
  destruct (min_from_least (x :: l) infinity eq_refl Hl)
    as (_ & _ & Hall & Hin).
  split; [ | exact Hall].
  destruct Hin as [E | Hin]; [ | exact Hin].
  inversion Hall as [ | ? ? Hx _]; subst.
  rewrite E in Hx. apply infinity_leb_inv in Hx. rewrite E, Hx. now left.
Qed.

Lemma Math_max_greatest (x : float) (l : list float) :
  no_nan (x :: l) ->
  In (JS.Math_max (x :: l)) (x :: l)
  /\ Forall (fun y => (y <=? JS.Math_max (x :: l)) = true) (x :: l).
Proof.
  intros Hl. unfold JS.Math_max.
  destruct (max_from_greatest (x :: l) neg_infinity eq_refl Hl)
    as (_ & _ & Hall & Hin).
  split; [ | exact Hall].
  destruct Hin as [E | Hin]; [ | exact Hin].
  inversion Hall as [ | ? ? Hx _]; subst.
  rewrite E in Hx. apply leb_neg_infinity_inv in Hx. rewrite E, Hx. now left.
Qed.




(** The examples of section 8. *)
Example grashofCondition_examples :
  grashofCondition 1 2 2 3 = "Special Grashof"%string
  /\ grashofCondition 2 5 4 7 = "Special Grashof"%string
  /\ grashofCondition 2 5 4 8 = "non-Grashof"%string
  /\ grashofCondition 2 7 4 8 = "Grashof"%string.
Proof. vm_compute. repeat split. Qed.



(** When the strict test fails, the tolerance decides: the answer is
    SpecialGrashof exactly when [|S+L - PQ| < 1e-9]. *)
Lemma grashofCondition_tolerance_side (a b c d : float) :
  let S := JS.Math_min [a; b; c; d] in
  let L := JS.Math_max [a; b; c; d] in
  let PQ := (a + b + c + d) - (S + L) in
  grashofCondition a b c d = "Special Grashof"%string <->
  (S + L <? PQ) = false /\ (abs (S + L - PQ) <? 1e-9) = true.
Proof.
  intros S L PQ. unfold grashofCondition, JS.Math_abs.
  fold S L. fold PQ.
  destruct (S + L <? PQ), (abs (S + L - PQ) <? 1e-9);
    split; intros H; try discriminate; try (destruct H; discriminate);
    auto.
Qed.

(** ** C4 and C10: validation, and links of length zero *)

Lemma loose_eq_null_iff (v : JS.value) :
  JS.loose_eq_null v = true <-> v = JS.Null \/ v = JS.Undefined.
Proof.
  destruct v; cbn; split; intros H; auto;
    try discriminate; destruct H; discriminate.
Qed.

Lemma missing_field_iff (req : Body) :
  missing_field req = true <->
  exists v, In v [body_a req; body_b req; body_c req; body_d req;
                  body_theta2 req]
            /\ (v = JS.Null \/ v = JS.Undefined).
Proof.
  unfold missing_field. rewrite !orb_true_iff, !loose_eq_null_iff. split.
  - intros [[[[H | H] | H] | H] | H]; eexists; (split; [ | exact H]);
      cbn; auto 6.
  - intros (v & Hin & Hv). cbn in Hin.
    destruct Hin as [<- | [<- | [<- | [<- | [<- | []]]]]]; auto 6.
Qed.

(** C10.  Whatever [computeFourBar] the handler calls (that of either
    file), it answers 400 with the missing-field message exactly when one
    of [a], [b], [c], [d], [theta2] is [null] or [undefined]; a body of
    five numbers, whatever they are (zero included), is answered 200 with
    [grashofCondition] and [computeFourBar] applied to those very numbers:
    no test of positivity stands in between. *)
Theorem post_compute_rejects_exactly_missing
  (computeFourBar : float -> float -> float -> float -> float -> Angles)
  (req : Body) :
  (post_compute computeFourBar req = Status400 missing_message <->
   exists v, In v [body_a req; body_b req; body_c req; body_d req;
                   body_theta2 req]
             /\ (v = JS.Null \/ v = JS.Undefined))
  /\ (forall a b c d theta2 : float,
        req = numeric_body a b c d theta2 ->
        post_compute computeFourBar req
        = Status200 (grashofCondition a b c d)
            (computeFourBar a b c d theta2)).
Proof.
  split.
  - rewrite <- missing_field_iff. unfold post_compute.
    destruct (missing_field req); split; intros H;
      try reflexivity; discriminate.
  - intros a b c d theta2 ->. reflexivity.
Qed.

(** A body whose [b] is 0 reaches the solver. *)
Example post_compute_zero_passes :
  post_compute (Part001.computeFourBar reference) (numeric_body 1 0 1 1 0)
  = Status200 (grashofCondition 1 0 1 1)
      (Part001.computeFourBar reference 1 0 1 1 0)
  /\ post_compute (Part001.computeFourBar reference)
       {| body_a := JS.Number 1; body_b := JS.Null; body_c := JS.Number 1;
          body_d := JS.Number 1; body_theta2 := JS.Number 0 |}
     = Status400 missing_message.
Proof. split; reflexivity. Qed.

(** C4 fails: with [c = 0], and with [b = 0], the handler answers 200 and
    the quotients by zero reach the answer as NaN.  For [c = 0]:
    [K1 = 1/0] and [K3 = 1/0] are [+Infinity], [A] is
    [-Infinity + Infinity = NaN], the discriminant is NaN, the test
    [NaN < 0] fails and both theta4 outputs are NaN. *)
Lemma zero_length_link_answers_NaN :
  post_compute (Part001.computeFourBar reference) (numeric_body 1 1 0 1 0)
  = Status200 "Grashof"
      {| theta41 := JS.Number nan; theta42 := JS.Number nan;
         theta31 := JS.Null; theta32 := JS.Null |}
  /\ post_compute (Part001.computeFourBar reference) (numeric_body 1 0 1 1 0)
     = Status200 "Grashof"
         {| theta41 := JS.Null; theta42 := JS.Null;
            theta31 := JS.Number nan; theta32 := JS.Number nan |}
  /\ theta41 (ServerJs.computeFourBar reference 1 1 0 1 0) = JS.Number nan
  /\ theta42 (ServerJs.computeFourBar reference 1 1 0 1 0) = JS.Number nan.
Proof. vm_compute. repeat split. Qed.

(** A quotient by a zero is an infinity or NaN, whatever the dividend. *)
Lemma div_by_zero_not_finite (x z : float) :
  (z =? 0) = true -> is_finite (x / z) = false.
Proof.
  intros Hz. unfold is_finite, is_nan, is_infinity.
  rewrite !eqb_spec, abs_spec, div_spec.
  change (Prim2SF infinity) with (S754_infinity false).
  destruct (eqb_zero_inv z Hz) as [-> | ->];
    [rewrite Prim2SF_zero | rewrite Prim2SF_neg_zero];
    destruct (Prim2SF x) as [s | s | | s m e]; try destruct s; reflexivity.
Qed.

(** C4, amended.  For every input with [b == 0] or [c == 0] no error is
    signalled: the handler answers 200 with the record [computeFourBar]
    returns, and the ratio by the zero length ([K1 = d/c] when [c == 0],
    [K2 = d/b] when [b == 0]) is an infinity or NaN that the solver goes
    on computing with. *)
Theorem zero_length_link_is_not_an_error
  (P : Platform) (a b c d theta2 : float) :
  (b =? 0) = true \/ (c =? 0) = true ->
  forall compute,
    compute = Part001.computeFourBar P \/ compute = ServerJs.computeFourBar P ->
    post_compute compute (numeric_body a b c d theta2)
    = Status200 (grashofCondition a b c d) (compute a b c d theta2)
    /\ (is_finite (K2 b d) = false \/ is_finite (K1 c d) = false).
Proof.
  intros Hzero compute _. split; [reflexivity | ].
  destruct Hzero as [Hb | Hc];
    [left | right]; now apply div_by_zero_not_finite.
Qed.

Lemma zero_length_link_is_not_an_error_witness :
  post_compute (Part001.computeFourBar reference) (numeric_body 1 1 0 1 0)
  = Status200 (grashofCondition 1 1 0 1)
      (Part001.computeFourBar reference 1 1 0 1 0)
  /\ (is_finite (K2 1 1) = false \/ is_finite (K1 0 1) = false).
Proof.
  exact (zero_length_link_is_not_an_error reference 1 1 0 1 0
           (or_intror eq_refl) _ (or_introl eq_refl)).
Defined.

(** ** C5: the range of the normalized angles *)

(** [normalizeAngle] adds 360 to a negative remainder; when the remainder
    is a small negative number the sum rounds to 360 itself.  The formula
    of the specification takes one more remainder and yields 0. *)
Lemma normalizeAngle_rounds_to_360 :
  normalizeAngle (-1.7541773246337186e-15) = 360
  /\ spec_normalize (-1.7541773246337186e-15) = 0
  /\ normalizeAngle (-1e-20) = 360
  /\ normalizeAngle 360 = 0
  /\ (360 <? 360) = false.
Proof. vm_compute. repeat split. Qed.

(** C5 fails on the code, in both revisions: an output can be 360.  Links
    1, 2, 2, 3 at theta2 = 90: [D] is [-3.06e-17] (the cosine of the
    double nearest pi/2 is [6.12e-17], not 0), the crossed part is 4, the
    arc tangent is [-1.53e-17] and the angle [-1.75e-15] degrees;
    [normalizeAngle] returns 360 for theta32, outside the interval from 0
    to 360 (360 excluded). *)
Lemma computeFourBar_reaches_360 :
  coefD reference 1 2 2 3 90 = -3.0616169978683824e-17
  /\ sqrtVal3 reference 1 2 2 3 90 = 4
  /\ Part001.computeFourBar reference 1 2 2 3 90
     = {| theta41 := JS.Null; theta42 := JS.Null;
          theta31 := JS.Number 180; theta32 := JS.Number 360 |}
  /\ theta31 (ServerJs.computeFourBar reference 1 2 2 3 90) = JS.Number 180
  /\ theta32 (ServerJs.computeFourBar reference 1 2 2 3 90) = JS.Number 360.
Proof. vm_compute. repeat split. Qed.

(** A finite input angle whose radian value overflows: the cosine of
    [Infinity] is NaN and so are all four outputs. *)
Lemma computeFourBar_huge_angle_NaN :
  degToRad 1e308 = infinity
  /\ Part001.computeFourBar reference 1 1 1 1 1e308
     = {| theta41 := JS.Number nan; theta42 := JS.Number nan;
          theta31 := JS.Number nan; theta32 := JS.Number nan |}.
Proof. vm_compute. repeat split. Qed.

(** ** C6: permutations of the lengths *)

(** C6 fails on the code: the class depends on the order of the lengths.
    The sum [a + b + c + d] is rounded after each addition, and the order
    of the terms changes it: [0.1 + 0.2 + 0.3 + 0.4] is 1 and
    [0.2 + 0.4 + 0.3 + 0.1] is 1.0000000000000002.  With [S + L = 0.5]
    the first order gives [PQ = 0.5], SpecialGrashof; the second gives
    [PQ = 0.5000000000000002], and the strict test answers Grashof. *)
Lemma grashofCondition_depends_on_order :
  0.1 + 0.2 + 0.3 + 0.4 = 1
  /\ 0.2 + 0.4 + 0.3 + 0.1 = 1.0000000000000002
  /\ grashofCondition 0.1 0.2 0.3 0.4 = "Special Grashof"%string
  /\ grashofCondition 0.2 0.4 0.3 0.1 = "Grashof"%string.
Proof. vm_compute. repeat split. Qed.

(** What remains of the claim: [Math.min] and [Math.max] do not depend
    on the order of positive arguments. *)
Lemma SFleb_antisym (x y : spec_float) :
  SFleb x y = true -> SFleb y x = true ->
  x = y \/ (exists s s', x = S754_zero s /\ y = S754_zero s').
Proof.
  unfold SFleb, SFcompare.
  destruct x as [sx | sx | | sx mx ex], y as [sy | sy | | sy my ey];
    try destruct sx; try destruct sy;
    try discriminate; auto; try (right; eauto; fail);
    compare_cases; simpl; try discriminate; intros _ _;
    try (exfalso; lia); subst; auto.
Qed.

Lemma leb_antisym (x y : float) :
  (x <=? y) = true -> (y <=? x) = true ->
  x = y \/ (is_zero x = true /\ is_zero y = true).
Proof.
  rewrite !leb_spec. intros H1 H2.
  destruct (SFleb_antisym _ _ H1 H2) as [E | (s & s' & Ex & Ey)].
  - left. now apply Prim2SF_inj.
  - right. unfold is_zero. rewrite !eqb_spec, Ex, Ey. now destruct s, s'.
Qed.

Lemma positive_not_zero (x : float) : (0 <? x) = true -> is_zero x = false.
Proof.
  intros H. destruct (is_zero x) eqn:E; [ | reflexivity].
  destruct (eqb_zero_inv x E) as [-> | ->]; discriminate.
Qed.

Lemma positive_not_nan (x : float) : (0 <? x) = true -> is_nan x = false.
Proof.
  unfold is_nan. rewrite ltb_spec, eqb_spec, Prim2SF_zero.
  unfold SFltb, SFeqb.
  destruct (Prim2SF x) as [s | s | | s m e]; try destruct s; simpl;
    try discriminate; try reflexivity.
  all: intros _; compare_cases; try reflexivity; try lia.
Qed.

Lemma positive_no_nan (l : list float) : positive l -> no_nan l.
Proof.
  unfold positive, no_nan. intros H.
  eapply Forall_impl; [ | exact H]. intros x. apply positive_not_nan.
Qed.

Lemma least_unique (l : list float) (s s' : float) :
  positive l ->
  In s l -> Forall (fun y => (s <=? y) = true) l ->
  In s' l -> Forall (fun y => (s' <=? y) = true) l ->
  s = s'.
Proof.
  intros Hpos Hs Hle Hs' Hle'. unfold positive in Hpos.
  rewrite Forall_forall in Hpos, Hle, Hle'.
  destruct (leb_antisym s s' (Hle _ Hs') (Hle' _ Hs)) as [E | [Hz _]];
    [exact E | ].
  rewrite (positive_not_zero s (Hpos _ Hs)) in Hz. discriminate.
Qed.

Lemma greatest_unique (l : list float) (s s' : float) :
  positive l ->
  In s l -> Forall (fun y => (y <=? s) = true) l ->
  In s' l -> Forall (fun y => (y <=? s') = true) l ->
  s = s'.
Proof.
  intros Hpos Hs Hle Hs' Hle'. unfold positive in Hpos.
  rewrite Forall_forall in Hpos, Hle, Hle'.
  destruct (leb_antisym s s' (Hle' _ Hs) (Hle _ Hs')) as [E | [Hz _]];
    [exact E | ].
  rewrite (positive_not_zero s (Hpos _ Hs)) in Hz. discriminate.
Qed.

Lemma Math_min_permutation (x x' : float) (l l' : list float) :
  positive (x :: l) -> Permutation (x :: l) (x' :: l') ->
  JS.Math_min (x :: l) = JS.Math_min (x' :: l').
Proof.
  intros Hpos Hperm.
  assert (Hpos' : positive (x' :: l'))
    by (unfold positive; now rewrite <- Hperm).
  destruct (Math_min_least x l (positive_no_nan _ Hpos)) as [Hin Hle].
  destruct (Math_min_least x' l' (positive_no_nan _ Hpos')) as [Hin' Hle'].
  apply (least_unique (x :: l)); auto.
  - now rewrite Hperm.
  - now rewrite Hperm.
Qed.

Lemma Math_max_permutation (x x' : float) (l l' : list float) :
  positive (x :: l) -> Permutation (x :: l) (x' :: l') ->
  JS.Math_max (x :: l) = JS.Math_max (x' :: l').
Proof.
  intros Hpos Hperm.
  assert (Hpos' : positive (x' :: l'))
    by (unfold positive; now rewrite <- Hperm).
  destruct (Math_max_greatest x l (positive_no_nan _ Hpos)) as [Hin Hle].
  destruct (Math_max_greatest x' l' (positive_no_nan _ Hpos')) as [Hin' Hle'].
  apply (greatest_unique (x :: l)); auto.
  - now rewrite Hperm.
  - now rewrite Hperm.
Qed.

(** Any two orders of four positive lengths on which the rounded sum
    [a + b + c + d] agrees are classified alike: the order matters through
    the sum only. *)
Theorem grashofCondition_permutation (a b c d a' b' c' d' : float) :
  positive [a; b; c; d] ->
  Permutation [a; b; c; d] [a'; b'; c'; d'] ->
  a + b + c + d = a' + b' + c' + d' ->
  grashofCondition a b c d = grashofCondition a' b' c' d'.
Proof.
  intros Hpos Hperm Hsum. unfold grashofCondition.
  rewrite (Math_min_permutation _ _ _ _ Hpos Hperm),
    (Math_max_permutation _ _ _ _ Hpos Hperm), Hsum.
  reflexivity.
Qed.

Lemma grashofCondition_permutation_witness :
  grashofCondition 1 2 2 3 = grashofCondition 3 2 1 2.
Proof.
  apply grashofCondition_permutation.
  - repeat constructor.
  - apply perm_trans with [3; 1; 2; 2].
    + change [1; 2; 2; 3] with ([1; 2; 2] ++ [3]).
      change [3; 1; 2; 2] with ([3] ++ [1; 2; 2]).
      apply Permutation_app_comm.
    + apply perm_skip. apply perm_trans with [2; 1; 2].
      * apply perm_swap.
      * apply perm_skip. apply Permutation_refl.
  - reflexivity.
Defined.

(** ** C7: the input angles 0 and 360 *)




(** ** C8: a discriminant that is exactly zero *)

(** With [x] a zero, ECMAScript fixes [Math.atan2(y, x)] for every [y];
    the sign of the zero changes the result only when [y] is a zero too,
    between 0 and pi (or -0 and -pi), and those angles normalize alike. *)
Lemma solutionAngle_zero_part
  (P : Platform) (HP : Conforming P) (y : float) :
  normalizeAngle (radToDeg (2 * Math_atan2 P y (-0)))
  = normalizeAngle (radToDeg (2 * Math_atan2 P y 0)).
Proof.
  assert (Hn : exists r, JS.atan2_fixed y (-0) = Some r
             /\ exists r', JS.atan2_fixed y 0 = Some r'
             /\ normalizeAngle (radToDeg (2 * r))
                = normalizeAngle (radToDeg (2 * r'))).
  { unfold JS.atan2_fixed.
    change (is_nan (-0)) with false. change (is_nan 0) with false.
    change (is_infinity (-0)) with false. change (is_infinity 0) with false.
    change (is_zero (-0)) with true. change (is_zero 0) with true.
    change (get_sign (-0)) with true. change (get_sign 0) with false.
    rewrite orb_false_r.
    destruct (is_nan y); [ eexists; split; [reflexivity|];
                           eexists; split; reflexivity |].
    destruct (is_infinity y), (is_zero y), (get_sign y);
      (eexists; split; [reflexivity|]; eexists; split; [reflexivity|]);
      vm_compute; reflexivity. }
  destruct Hn as (r & Hr & r' & Hr' & E).
  rewrite (atan2_conforms P HP _ _ _ Hr), (atan2_conforms P HP _ _ _ Hr').
  exact E.
Qed.

(** The two parts [-B - root] and [-B + root] when the root is a zero:
    they are [-B], or differ from it by the sign of a zero. *)
Lemma solutionAngle_zero_root
  (P : Platform) (HP : Conforming P) (A mB root : float) :
  root = 0 \/ root = -0 ->
  solutionAngle P A (mB - root) = solutionAngle P A mB
  /\ solutionAngle P A (mB + root) = solutionAngle P A mB.
Proof.
  unfold solutionAngle.
  intros [-> | ->]; destruct (float_eq_dec mB (-0)) as [-> | Hne].
  - change (-0 - 0) with (-0). change (-0 + 0) with 0.
    split; [reflexivity | symmetry; now apply solutionAngle_zero_part].
  - rewrite sub_zero_r, add_zero_r by assumption. now split.
  - change (-0 - -0) with 0. change (-0 + -0) with (-0).
    split; [symmetry; now apply solutionAngle_zero_part | reflexivity].
  - rewrite sub_neg_zero_r, add_neg_zero_r by assumption. now split.
Qed.

(** C8.  On a platform that follows ECMAScript, for every input whose
    theta4 discriminant equals zero, both revisions return the same
    angle for the open and the crossed circuit, namely
    [2 atan2(2A, -B)] in degrees, normalized. *)
Theorem zero_discriminant_solutions_coincide
  (P : Platform) (a b c d theta2_deg : float) :
  Conforming P ->
  (sqrtVal4 P a b c d theta2_deg =? 0) = true ->
  forall r : Angles,
    r = Part001.computeFourBar P a b c d theta2_deg
    \/ r = ServerJs.computeFourBar P a b c d theta2_deg ->
    theta41 r = theta42 r
    /\ theta41 r
       = JS.Number
           (normalizeAngle
              (radToDeg
                 (2 * Math_atan2 P (2 * coefA P a b c d theta2_deg)
                        (- coefB P theta2_deg)))).
Proof.
  intros HP Hzero r Hr.
  assert (Hroot : (sqrtVal4 P a b c d theta2_deg <? 0) = false
                  /\ (math_sqrt P (sqrtVal4 P a b c d theta2_deg) = 0
                      \/ math_sqrt P (sqrtVal4 P a b c d theta2_deg) = -0)).
  { unfold math_sqrt.
    destruct (eqb_zero_inv _ Hzero) as [-> | ->]; split;
      solve [ reflexivity | left; reflexivity | right; reflexivity ]. }
  destruct Hroot as [Hlt Hroot].
  pose proof (solutionAngle_zero_root P HP (coefA P a b c d theta2_deg)
                (- coefB P theta2_deg) _ Hroot) as [Hopen Hcross].
  fold (solutionAngle P (coefA P a b c d theta2_deg) (- coefB P theta2_deg)).
  destruct Hr as [-> | ->].
  - unfold Part001.computeFourBar. rewrite Hlt.
    destruct (sqrtVal3 P a b c d theta2_deg <? 0); cbn [theta41 theta42];
      rewrite Hopen, Hcross; now split.
  - unfold ServerJs.computeFourBar. cbn [theta41 theta42].
    fold (sqrtVal4 P a b c d theta2_deg).
    rewrite Hopen, Hcross. now split.
Qed.

(** The reference platform follows ECMAScript. *)
Lemma reference_conforming : Conforming reference.
Proof.
  split; cbn [Math_cos Math_sin Math_atan2 reference].
  - intros x r ->. reflexivity.
  - intros x r ->. reflexivity.
  - intros y x r ->. reflexivity.
Qed.

(** The unit square at theta2 = 0 is flat: the discriminant is 0 and
    both circuits give the angle 0. *)
Lemma zero_discriminant_solutions_coincide_witness :
  theta41 (Part001.computeFourBar reference 1 1 1 1 0)
  = theta42 (Part001.computeFourBar reference 1 1 1 1 0)
  /\ theta41 (Part001.computeFourBar reference 1 1 1 1 0) = JS.Number 0.
Proof.
  exact (zero_discriminant_solutions_coincide reference 1 1 1 1 0
           reference_conforming eq_refl _ (or_introl eq_refl)).
Defined.
